(** * Garden-Cam power controller (Arduino side, v5.3)

    A shallow embedding of [src/main.cpp]: the relay power state machine,
    the I2C command handler, the PIR edge detector and the battery monitor,
    followed by the properties the design document states about them.

    Conventions of the embedding.
    - The global variables of the sketch are the fields of one [state]
      record; every function of the sketch is a function on that record.
    - [unsigned long] is a 32-bit unsigned integer: values are in [Z] and
      subtraction wraps modulo [2^32] ([sub32]).
    - [float] (and [double], which is the same type on the AVR target the
      sketch is written for) is IEEE-754 binary32, computed with the
      Standard Library's [SpecFloat] at precision 24.
    - Whatever the sketch reads from the hardware ([millis()],
      [digitalRead], [analogRead], the bytes of an I2C frame) is an explicit
      input of the function that reads it, one input per read.
    - [LowPower.powerDown(SLEEP_FOREVER, ...)] does not return: a function
      that can reach it returns an [outcome], [Halted] when it did.
    - The operations ([setup], one [loop] iteration, one handler call) are
      taken as atomic: the handler runs between loop iterations. *)

From Stdlib Require Import ZArith List Bool Lia.
From Stdlib Require Import Floats.SpecFloat.
Import ListNotations.
Local Open Scope Z_scope.

(* ------------------------------------------------------------------ *)
(** ** Machine arithmetic *)

Definition two32 : Z := 2 ^ 32.

(** [unsigned long] subtraction and addition. *)
Definition sub32 (a b : Z) : Z := (a - b) mod two32.
Definition add32 (a b : Z) : Z := (a + b) mod two32.

(** Conversions to [uint8_t] and [uint16_t] of an integer value. *)
Definition u8 (x : Z) : Z := x mod 256.
Definition u16 (x : Z) : Z := x mod 65536.

(** Arduino's macro
    [constrain(amt,low,high) ((amt)<(low)?(low):((amt)>(high)?(high):(amt)))]. *)
Definition constrain (amt low high : Z) : Z :=
  if amt <? low then low else if amt >? high then high else amt.

(* ------------------------------------------------------------------ *)
(** ** Binary32 arithmetic *)

Module F32.

Definition prec : Z := 24.
Definition emax : Z := 128.

Definition of_Z (z : Z) : spec_float := binary_normalize prec emax z 0 false.
Definition mul : spec_float -> spec_float -> spec_float := SFmul prec emax.
Definition div : spec_float -> spec_float -> spec_float := SFdiv prec emax.
Definition add : spec_float -> spec_float -> spec_float := SFadd prec emax.
Definition sub : spec_float -> spec_float -> spec_float := SFsub prec emax.
Definition ltb : spec_float -> spec_float -> bool := SFltb.

(** A decimal literal [n/d] with [n] and [d] exactly representable: the
    correctly rounded quotient is the binary32 number nearest to it. *)
Definition lit (n d : Z) : spec_float := div (of_Z n) (of_Z d).

(** Conversion to an integer type discards the fractional part. *)
Definition trunc (x : spec_float) : Z :=
  match x with
  | S754_finite sg m e =>
      let mag := if 0 <=? e then Z.shiftl (Zpos m) e else Z.shiftr (Zpos m) (- e) in
      if sg then - mag else mag
  | _ => 0
  end.

End F32.

(* ------------------------------------------------------------------ *)
(** ** Constants of the sketch *)

Definition HIGH : bool := true.
Definition LOW : bool := false.

Definition RELAY_ON_STATE : bool := HIGH.

Definition CMD_SHUT : Z := 0x07.
Definition CMD_MODE : Z := 0x0D.

Definition VREF : spec_float := F32.of_Z 5.
Definition R1 : spec_float := F32.of_Z 30000.
Definition R2 : spec_float := F32.of_Z 7500.
Definition VBAT_CUT : spec_float := F32.lit 540 100.

(* ------------------------------------------------------------------ *)
(** ** State *)

(** The lines the sketch prints on [Serial], one constructor per call of
    [Serial.println]. *)
Inductive msg : Type :=
| MsgBanner        (* "=== GardenCam Arduino v5.3 ===" *)
| MsgBattCut       (* "Batt < 5.4 V -> relay OFF + deep sleep" *)
| MsgModeAlwaysOn  (* "Mode: always-on  -> relay HIGH (Pi ON)" *)
| MsgModePir       (* "Mode: PIR        -> relay LOW  (Pi OFF)" *)
| MsgPirRise       (* "PIR ^ -> relay HIGH (60 s)" *)
| MsgTimeout       (* "60 s elapsed -> relay LOW" *)
| MsgShut.         (* "CMD_SHUT -> relay LOW" *)

Definition msg_eqb (a b : msg) : bool :=
  match a, b with
  | MsgBanner, MsgBanner | MsgBattCut, MsgBattCut
  | MsgModeAlwaysOn, MsgModeAlwaysOn | MsgModePir, MsgModePir
  | MsgPirRise, MsgPirRise | MsgTimeout, MsgTimeout | MsgShut, MsgShut => true
  | _, _ => false
  end.

(** The globals of the sketch, the level driven on [PIN_RELAY], the unread
    part of the Wire receive buffer and the serial log (latest line first). *)
Record state : Type := mkState {
  battCutoff : bool;
  alwaysOn   : bool;
  rqShutdown : bool;
  powering   : bool;
  onMs       : Z;
  lastPir    : bool;
  battPct    : Z;
  battT      : Z;
  pin_relay  : bool;
  wire_rx    : list Z;
  serial     : list msg
}.

Definition set_alwaysOn (v : bool) (s : state) : state :=
  mkState (battCutoff s) v (rqShutdown s) (powering s) (onMs s) (lastPir s)
          (battPct s) (battT s) (pin_relay s) (wire_rx s) (serial s).
Definition set_rqShutdown (v : bool) (s : state) : state :=
  mkState (battCutoff s) (alwaysOn s) v (powering s) (onMs s) (lastPir s)
          (battPct s) (battT s) (pin_relay s) (wire_rx s) (serial s).
Definition set_powering (v : bool) (s : state) : state :=
  mkState (battCutoff s) (alwaysOn s) (rqShutdown s) v (onMs s) (lastPir s)
          (battPct s) (battT s) (pin_relay s) (wire_rx s) (serial s).
Definition set_onMs (v : Z) (s : state) : state :=
  mkState (battCutoff s) (alwaysOn s) (rqShutdown s) (powering s) v (lastPir s)
          (battPct s) (battT s) (pin_relay s) (wire_rx s) (serial s).
Definition set_lastPir (v : bool) (s : state) : state :=
  mkState (battCutoff s) (alwaysOn s) (rqShutdown s) (powering s) (onMs s) v
          (battPct s) (battT s) (pin_relay s) (wire_rx s) (serial s).
Definition set_battPct (v : Z) (s : state) : state :=
  mkState (battCutoff s) (alwaysOn s) (rqShutdown s) (powering s) (onMs s) (lastPir s)
          v (battT s) (pin_relay s) (wire_rx s) (serial s).
Definition set_battT (v : Z) (s : state) : state :=
  mkState (battCutoff s) (alwaysOn s) (rqShutdown s) (powering s) (onMs s) (lastPir s)
          (battPct s) v (pin_relay s) (wire_rx s) (serial s).
Definition set_wire_rx (v : list Z) (s : state) : state :=
  mkState (battCutoff s) (alwaysOn s) (rqShutdown s) (powering s) (onMs s) (lastPir s)
          (battPct s) (battT s) (pin_relay s) v (serial s).

(** [digitalWrite(PIN_RELAY, v)] and [Serial.println(F(...))]. *)
Definition digitalWrite_relay (v : bool) (s : state) : state :=
  mkState (battCutoff s) (alwaysOn s) (rqShutdown s) (powering s) (onMs s) (lastPir s)
          (battPct s) (battT s) v (wire_rx s) (serial s).
Definition println (m : msg) (s : state) : state :=
  mkState (battCutoff s) (alwaysOn s) (rqShutdown s) (powering s) (onMs s) (lastPir s)
          (battPct s) (battT s) (pin_relay s) (wire_rx s) (m :: serial s).

(** The values the globals are initialised with; the relay pin is low
    until [setup] drives it. *)
Definition initial : state :=
  mkState false true false true 0 LOW 0 0 LOW [] [].

(** A function that can reach the deep sleep either returns or halts. *)
Inductive outcome : Type :=
| Running (s : state)
| Halted (s : state).

Definition state_of (o : outcome) : state :=
  match o with Running s | Halted s => s end.

Definition bind (o : outcome) (k : state -> outcome) : outcome :=
  match o with
  | Running s => k s
  | Halted s => Halted s
  end.

Notation "x <- o ;; k" := (bind o (fun x => k))
  (at level 61, o at next level, right associativity).

(* ------------------------------------------------------------------ *)
(** ** Helpers *)

Definition relayOn (s : state) : state := digitalWrite_relay RELAY_ON_STATE s.
Definition relayOff (s : state) : state := digitalWrite_relay (negb RELAY_ON_STATE) s.
Definition relayIsOn (s : state) : bool := Bool.eqb (pin_relay s) RELAY_ON_STATE.

(** [readAdc]: [adc i] is the value of the [i]-th [analogRead(A0)], summed
    in a [uint32_t], shifted and returned as a [uint16_t]. *)
Definition readAdc (adc : nat -> Z) : Z :=
  let s := fold_left (fun s i => (s + adc i) mod two32) (seq 0 8) 0 in
  u16 (Z.shiftr s 3).

(** [raw*VREF/1023.0*(R1+R2)/R2]. *)
Definition voltage (raw : Z) : spec_float :=
  F32.div
    (F32.mul (F32.div (F32.mul (F32.of_Z raw) VREF) (F32.of_Z 1023)) (F32.add R1 R2))
    R2.

(** [(uint8_t)((v-5.5)*100.0/3.3)]. The value of the conversion is only
    defined by the language when the truncated number fits the type;
    otherwise the low byte of the truncated number is taken here. *)
Definition percent_byte (v : spec_float) : Z :=
  u8 (F32.trunc
        (F32.div (F32.mul (F32.sub v (F32.lit 55 10)) (F32.of_Z 100)) (F32.lit 33 10))).

(** Modelled from the spec: [LowPower.powerDown(SLEEP_FOREVER, ADC_OFF,
    BOD_OFF)], a call into the LowPower library, whose code is not part of
    the sketch. The design document gives it a never-returns contract (an
    unrecoverable low-power halt with no wake source other than an external
    reset): the call ends the run in the state it is made in. *)
Definition LowPower_powerDown (s : state) : outcome := Halted s.

Definition saveBattery (adc : nat -> Z) (s : state) : outcome :=
  let raw := readAdc adc in
  let v := voltage raw in
  let s1 := set_battPct (u8 (constrain (percent_byte v) 0 100)) s in
  if battCutoff s1 && F32.ltb v VBAT_CUT then
    LowPower_powerDown (relayOff (println MsgBattCut s1))
  else
    Running s1.

(** [applyRelay]; [now] is what [millis()] returns when it is called. *)
Definition applyRelay (now : Z) (s : state) : state :=
  if alwaysOn s then
    set_onMs now (set_powering true (relayOn (println MsgModeAlwaysOn s)))
  else
    set_powering false (relayOff (println MsgModePir s)).

(* ------------------------------------------------------------------ *)
(** ** I2C *)

(** The Wire library's [read()] gives the next unread byte of the receive
    buffer, or [-1] when there is none; [available()] counts what is left. *)
Definition Wire_read (s : state) : Z * state :=
  match wire_rx s with
  | [] => (-1, s)
  | b :: rest => (b, set_wire_rx rest s)
  end.

Definition Wire_available (s : state) : Z := Z.of_nat (length (wire_rx s)).

(** [while (Wire.available()) Wire.read();], one iteration per unread byte. *)
Fixpoint drain (k : nat) (s : state) : state :=
  match k with
  | O => s
  | S k' => if Wire_available s =? 0 then s else drain k' (snd (Wire_read s))
  end.

(** [rxEvent(n)]; [now] is what [millis()] returns if [applyRelay] runs. *)
Definition rxEvent (now : Z) (n : Z) (s : state) : state :=
  if n =? 0 then s
  else
    let (c, s1) := Wire_read s in
    let cmd := u8 c in
    let s2 :=
      if (cmd =? CMD_MODE) && (n >=? 2) then
        let (b, s1') := Wire_read s1 in
        let nm := negb (b =? 0) in
        if negb (Bool.eqb nm (alwaysOn s1')) then applyRelay now (set_alwaysOn nm s1')
        else s1'
      else if cmd =? CMD_SHUT then set_rqShutdown true s1
      else s1 in
    drain (length (wire_rx s2)) s2.

(** [txEvent]: the byte handed to [Wire.write]. *)
Definition txEvent (s : state) : Z := battPct s.

(** The Wire library calls the receive handler with the number of bytes of
    the frame, after it has put these bytes in the receive buffer. *)
Definition onReceive (now : Z) (frame : list Z) (s : state) : state :=
  rxEvent now (Z.of_nat (length frame)) (set_wire_rx frame s).

(* ------------------------------------------------------------------ *)
(** ** setup and loop *)

(** What [setup] reads, in the order of the reads. *)
Record setup_in : Type := mkSetupIn {
  su_millis_on   : Z;          (* [onMs = millis()] *)
  su_pir         : bool;       (* [digitalRead(PIN_PIR)] *)
  su_adc         : nat -> Z;   (* the reads of [readAdc] *)
  su_millis_batt : Z           (* [battT = millis()] *)
}.

Definition setup (i : setup_in) (s : state) : outcome :=
  let s1 := println MsgBanner s in
  let s2 := set_onMs (su_millis_on i) (set_powering true (relayOn s1)) in
  let s3 := set_lastPir (su_pir i) s2 in
  s4 <- saveBattery (su_adc i) s3 ;;
  Running (set_battT (su_millis_batt i) s4).

(** What one iteration of [loop] reads, in the order of the reads; a read
    that the iteration does not reach leaves its input unused. *)
Record loop_in : Type := mkLoopIn {
  li_millis_due  : Z;          (* [millis() - battT >= 10000UL] *)
  li_millis_batt : Z;          (* [battT = millis()] *)
  li_adc         : nat -> Z;   (* the reads of [readAdc] *)
  li_pir         : bool;       (* [digitalRead(PIN_PIR)] *)
  li_millis_pir  : Z;          (* [onMs = millis()] on a rising edge *)
  li_millis_hold : Z           (* [millis() - onMs >= 60000UL] *)
}.

(** The four blocks of [loop], in the order of the source. *)
Definition loop_battery (i : loop_in) (s : state) : outcome :=
  if sub32 (li_millis_due i) (battT s) >=? 10000 then
    saveBattery (li_adc i) (set_battT (li_millis_batt i) s)
  else Running s.

Definition loop_pir (i : loop_in) (s : state) : state :=
  let pir := li_pir i in
  let s1 :=
    if negb (alwaysOn s) && pir && negb (lastPir s) then
      set_onMs (li_millis_pir i) (set_powering true (relayOn (println MsgPirRise s)))
    else s in
  set_lastPir pir s1.

Definition loop_timeout (i : loop_in) (s : state) : state :=
  if negb (alwaysOn s) && powering s && (sub32 (li_millis_hold i) (onMs s) >=? 60000) then
    set_powering false (relayOff (println MsgTimeout s))
  else s.

Definition loop_shutdown (s : state) : state :=
  if negb (alwaysOn s) && rqShutdown s then
    set_rqShutdown false (set_powering false (relayOff (println MsgShut s)))
  else s.

Definition loop (i : loop_in) (s : state) : outcome :=
  s1 <- loop_battery i s ;;
  Running (loop_shutdown (loop_timeout i (loop_pir i s1))).

(* ------------------------------------------------------------------ *)
(** ** Runs of the program *)

(** After [setup], the program is a sequence of loop iterations, received
    frames and read requests. *)
Inductive event : Type :=
| EvLoop (i : loop_in)
| EvReceive (now : Z) (frame : list Z)
| EvRequest.

Definition step (e : event) (s : state) : outcome :=
  match e with
  | EvLoop i => loop i s
  | EvReceive now frame => Running (onReceive now frame s)
  | EvRequest => Running s
  end.

(** Once halted, nothing runs any more. *)
Fixpoint run (es : list event) (o : outcome) : outcome :=
  match es with
  | [] => o
  | e :: es' => run es' (s <- o ;; step e s)
  end.

(** The outcomes the program as shipped can be in after [setup]. *)
Inductive reachable : outcome -> Prop :=
| reach_setup (i : setup_in) : reachable (setup i initial)
| reach_step (e : event) (s : state) :
    reachable (Running s) -> reachable (step e s).

(** The logical relay state, as [relayIsOn] reads it back from the pin. *)
Inductive RelayState : Type := ON | OFF.

Definition relay (s : state) : RelayState := if relayIsOn s then ON else OFF.

(** How many times a line was printed. *)
Definition printed (m : msg) (s : state) : nat :=
  length (filter (msg_eqb m) (serial s)).

(** The operating mode, as the design document names the two values of
    [alwaysOn]. *)
Inductive Mode : Type := ALWAYS_ON | PIR_TRIGGERED.

Definition mode (s : state) : Mode := if alwaysOn s then ALWAYS_ON else PIR_TRIGGERED.

(** The mode a SET_MODE payload byte asks for: [bool nm = Wire.read()]. *)
Definition mode_of_byte (b : Z) : Mode := if b =? 0 then PIR_TRIGGERED else ALWAYS_ON.

(** The state variable agrees with the level on the pin. *)
Definition consistent (s : state) : Prop := powering s = relayIsOn s.

(* ------------------------------------------------------------------ *)
(** ** Vocabulary of the properties *)


(** The cutoff is disabled, the state variable agrees with the pin, and
    the relay is on in always-on mode. *)
Definition inv (s : state) : Prop :=
  battCutoff s = false /\ consistent s /\ (alwaysOn s = true -> powering s = true).

(** A rising edge: the input reads HIGH and read LOW at the previous poll. *)
Definition rising (i : loop_in) (s : state) : bool := li_pir i && negb (lastPir s).

(** The shapes of frame the design document speaks of. A well-formed frame
    is a SET_MODE byte with its payload byte or a shutdown byte alone; an
    over-length frame is a well-formed one followed by more bytes; a short
    frame is empty or a SET_MODE byte without its payload. *)
Definition is_byte (c : Z) : Prop := 0 <= c < 256.

Definition unknown_leading (frame : list Z) : Prop :=
  match frame with
  | c :: _ => is_byte c /\ c <> CMD_MODE /\ c <> CMD_SHUT
  | [] => False
  end.

Definition short_frame (frame : list Z) : Prop :=
  frame = [] \/ frame = [CMD_MODE].

Definition well_formed (frame : list Z) : Prop :=
  (exists b, frame = [CMD_MODE; b]) \/ frame = [CMD_SHUT].

Definition over_length (frame : list Z) : Prop :=
  exists good x extra, well_formed good /\ frame = good ++ x :: extra.

(* ------------------------------------------------------------------ *)
(** ** Sample inputs and states *)

(** Sample inputs: a boot, and a loop iteration in which every clock read
    gives [t] and the motion input reads [pir]. *)
Definition adc_const (v : Z) : nat -> Z := fun _ => v.
Definition boot : setup_in := mkSetupIn 0 LOW (adc_const 700) 5.
Definition poll (t : Z) (pir : bool) : loop_in :=
  mkLoopIn t t (adc_const 700) pir t t.

(** A state in PIR mode with a frame waiting in the receive buffer. *)
Definition frame_state (frame : list Z) : state :=
  mkState false false true false 7 LOW 0 0 LOW frame [].

(** A reachable state in PIR mode with the relay ON since [t0 = 1000]:
    after boot, a switch to PIR mode and a rising motion edge at 1000. *)
Definition armed_events : list event :=
  [EvReceive 100 [CMD_MODE; 0]; EvLoop (poll 1000 HIGH)].

Definition armed : state :=
  Eval vm_compute in state_of (run armed_events (setup boot initial)).


(** A state of a build in which the cutoff has been enabled. *)
Definition cutoff_enabled_state : state :=
  mkState true true false true 0 LOW 0 0 HIGH [] [].

(* ------------------------------------------------------------------ *)
(** ** Vocabulary of the further properties *)

(** What a frame asks for, read off its bytes the way the handler reads
    them: the first byte as a [uint8_t], the SET_MODE payload as a [bool]. *)
Inductive command : Type :=
| CmdSetMode (always : bool)
| CmdShutdown
| CmdNone.

Definition decode (frame : list Z) : command :=
  match frame with
  | [] => CmdNone
  | c :: rest =>
      if u8 c =? CMD_MODE then
        match rest with
        | [] => CmdNone
        | b :: _ => CmdSetMode (negb (b =? 0))
        end
      else if u8 c =? CMD_SHUT then CmdShutdown
      else CmdNone
  end.

Definition execute (now : Z) (c : command) (s : state) : state :=
  match c with
  | CmdSetMode nm =>
      if Bool.eqb nm (alwaysOn s) then s else applyRelay now (set_alwaysOn nm s)
  | CmdShutdown => set_rqShutdown true s
  | CmdNone => s
  end.

(** A sequence of polls without a rising edge, [prev] being the reading
    before the first of them. *)
Fixpoint quiet (prev : bool) (polls : list loop_in) : bool :=
  match polls with
  | [] => true
  | i :: rest => negb (li_pir i && negb prev) && quiet (li_pir i) rest
  end.

(** [f] holds of [lo], [lo + 1], ..., [lo + n - 1]. *)
Definition all_from (lo : Z) (n : nat) (f : Z -> bool) : bool :=
  forallb (fun k => f (lo + Z.of_nat k)) (seq 0 n).

(** The percentage [saveBattery] stores for a raw reading. *)
Definition stored_percent (raw : Z) : Z :=
  u8 (constrain (percent_byte (voltage raw)) 0 100).

(** [(v-5.5)*100.0/3.3] with its fractional part discarded, before the
    conversion to [uint8_t] keeps a byte of it. *)
Definition percent_value (v : spec_float) : Z :=
  F32.trunc
    (F32.div (F32.mul (F32.sub v (F32.lit 55 10)) (F32.of_Z 100)) (F32.lit 33 10)).

(** The state after boot. *)
Definition booted : state :=
  Eval vm_compute in state_of (setup boot initial).

(** A reachable state in PIR mode with the relay OFF while the motion
    input still reads HIGH: the hold window of [armed] has run out. *)
Definition timed_out : state :=
  Eval vm_compute in
    state_of (run (armed_events ++ [EvLoop (poll 61000 HIGH)]) (setup boot initial)).

(* ================================================================== *)
(** * Properties *)

(** ** Concrete runs *)

Example boot_powers_the_pi :
  let s := state_of (setup boot initial) in
  mode s = ALWAYS_ON /\ relay s = ON /\ powering s = true /\ onMs s = 0 /\
  battT s = 5 /\ serial s = [MsgBanner].
Proof. vm_compute. repeat split. Qed.

(** The average of eight reads is truncated: [4028 / 8]. *)
Example readAdc_truncates : readAdc (fun k => 500 + Z.of_nat k) = 503.
Proof. vm_compute. reflexivity. Qed.

(** The cutoff threshold falls between the raw readings 220 and 221. *)
Example cutoff_threshold_raw :
  F32.ltb (voltage 220) VBAT_CUT = true /\ F32.ltb (voltage 221) VBAT_CUT = false.
Proof. vm_compute. split; reflexivity. Qed.

(** Where the formula's value fits a byte, the stored percentage is that
    value, clamped at 100. *)
Example percent_samples :
  map (fun raw => battPct (state_of (saveBattery (adc_const raw) initial)))
      [225; 300; 360; 361; 429] = [0; 55; 99; 100; 100].
Proof. vm_compute. reflexivity. Qed.

(** The clamp acts on the converted byte, not on the formula's value: at
    the top of the range the formula gives 590, and with the conversion
    taken as in [percent_byte] the stored percentage is [590 - 512]. *)
Example percent_at_full_scale :
  battPct (state_of (saveBattery (adc_const 1023) initial)) = 78.
Proof. vm_compute. reflexivity. Qed.

(** The halting path drives the pin low and leaves [powering] as it was. *)
Example halt_leaves_powering :
  exists h, saveBattery (adc_const 200) cutoff_enabled_state = Halted h /\
            pin_relay h = LOW /\ powering h = true /\ serial h = [MsgBattCut].
Proof. eexists. vm_compute. repeat split. Qed.

(** ** The command handler *)

Lemma drain_from (l : list Z) :
  forall s, wire_rx s = l -> drain (length l) s = set_wire_rx [] s.
Proof.
  induction l as [|b l IH]; intros s Hs.
  - destruct s; simpl in *; subst; reflexivity.
  - simpl. unfold Wire_available, Wire_read. rewrite Hs. simpl.
    rewrite IH by reflexivity. reflexivity.
Qed.

Lemma drain_all (s : state) : drain (length (wire_rx s)) s = set_wire_rx [] s.
Proof. apply drain_from; reflexivity. Qed.

(** A SET_MODE frame of at least two bytes: what the handler does with it. *)
Lemma rxEvent_set_mode (now n b : Z) (rest : list Z) (s : state) :
  n >= 2 -> wire_rx s = CMD_MODE :: b :: rest ->
  rxEvent now n s =
  set_wire_rx []
    (if negb (Bool.eqb (negb (b =? 0)) (alwaysOn s))
     then applyRelay now (set_alwaysOn (negb (b =? 0)) s) else s).
Proof.
  intros Hn Hw. unfold rxEvent.
  replace (n =? 0) with false by (symmetry; apply Z.eqb_neq; lia).
  unfold Wire_read at 1. rewrite Hw.
  change (u8 CMD_MODE =? CMD_MODE) with true.
  replace (n >=? 2) with true by (symmetry; apply Z.geb_le; lia).
  cbn [andb]. unfold Wire_read. cbn [wire_rx set_wire_rx alwaysOn].
  destruct (negb (Bool.eqb (negb (b =? 0)) (alwaysOn s))).
  - rewrite drain_all. destruct s, (b =? 0); reflexivity.
  - rewrite drain_all. reflexivity.
Qed.

(** A frame whose first byte is no command, or a SET_MODE byte alone. *)
Lemma rxEvent_ignored (now n c : Z) (rest : list Z) (s : state) :
  n <> 0 -> wire_rx s = c :: rest ->
  u8 c <> CMD_SHUT -> (u8 c <> CMD_MODE \/ n < 2) ->
  rxEvent now n s = set_wire_rx [] s.
Proof.
  intros Hn Hw Hshut Hmode. unfold rxEvent.
  replace (n =? 0) with false by (symmetry; apply Z.eqb_neq; lia).
  unfold Wire_read. rewrite Hw.
  replace ((u8 c =? CMD_MODE) && (n >=? 2)) with false.
  - replace (u8 c =? CMD_SHUT) with false by (symmetry; apply Z.eqb_neq; assumption).
    rewrite drain_all. reflexivity.
  - symmetry. apply andb_false_iff. destruct Hmode as [H|H].
    + left. apply Z.eqb_neq. assumption.
    + right. rewrite Z.geb_leb. apply Z.leb_gt. lia.
Qed.

(** A shutdown frame, whatever follows its first byte. *)
Lemma rxEvent_shutdown (now n : Z) (rest : list Z) (s : state) :
  n <> 0 -> wire_rx s = CMD_SHUT :: rest ->
  rxEvent now n s = set_wire_rx [] (set_rqShutdown true s).
Proof.
  intros Hn Hw. unfold rxEvent.
  replace (n =? 0) with false by (symmetry; apply Z.eqb_neq; lia).
  unfold Wire_read. rewrite Hw.
  change (u8 CMD_SHUT =? CMD_MODE) with false.
  change (u8 CMD_SHUT =? CMD_SHUT) with true.
  cbn [andb]. rewrite drain_all. reflexivity.
Qed.

(** C1. For every prior state, a SET_MODE command whose mode differs from
    the current one sets the mode and re-asserts the relay inside the
    handler call itself: to ALWAYS_ON, the relay is ON and the power timer
    is the current time; to PIR_TRIGGERED, the relay is OFF. *)
Theorem mode_change_forces_relay (now n b : Z) (rest : list Z) (s : state) :
  n >= 2 -> wire_rx s = CMD_MODE :: b :: rest ->
  mode_of_byte b <> mode s ->
  let s' := rxEvent now n s in
  mode s' = mode_of_byte b /\
  (mode_of_byte b = ALWAYS_ON ->
     relay s' = ON /\ powering s' = true /\ onMs s' = now) /\
  (mode_of_byte b = PIR_TRIGGERED ->
     relay s' = OFF /\ powering s' = false).
Proof.
  intros Hn Hw Hdiff s'. subst s'.
  rewrite (rxEvent_set_mode now n b rest s Hn Hw).
  unfold mode_of_byte, mode in *.
  destruct s as [bc ao rq pw om lp bp bt pin wr sr]; cbn [alwaysOn] in *.
  destruct (b =? 0), ao; try congruence; cbn;
    repeat split; intros; try reflexivity; try discriminate.
Qed.

Lemma mode_change_forces_relay_witness :
  let s' := rxEvent 1234 2 (frame_state [CMD_MODE; 1]) in
  mode s' = ALWAYS_ON /\
  (mode_of_byte 1 = ALWAYS_ON ->
     relay s' = ON /\ powering s' = true /\ onMs s' = 1234) /\
  (mode_of_byte 1 = PIR_TRIGGERED ->
     relay s' = OFF /\ powering s' = false).
Proof.
  apply (mode_change_forces_relay 1234 2 1 [] (frame_state [CMD_MODE; 1])).
  - lia.
  - reflexivity.
  - discriminate.
Defined.

(** C5. For every state, a SET_MODE command whose mode is the current one
    changes nothing: mode, relay, power timer and every other variable are
    as before; only the receive buffer has been read to its end. *)
Theorem same_mode_is_noop (now n b : Z) (rest : list Z) (s : state) :
  n >= 2 -> wire_rx s = CMD_MODE :: b :: rest ->
  mode_of_byte b = mode s ->
  rxEvent now n s = set_wire_rx [] s /\
  relay (rxEvent now n s) = relay s /\
  powering (rxEvent now n s) = powering s /\
  onMs (rxEvent now n s) = onMs s.
Proof.
  intros Hn Hw Hsame.
  assert (E : rxEvent now n s = set_wire_rx [] s).
  { rewrite (rxEvent_set_mode now n b rest s Hn Hw).
    unfold mode_of_byte, mode in Hsame.
    destruct (b =? 0), (alwaysOn s); try discriminate; reflexivity. }
  rewrite E. repeat split.
Qed.

Lemma same_mode_is_noop_witness :
  let s := frame_state [CMD_MODE; 0; 9] in
  rxEvent 1234 3 s = set_wire_rx [] s /\
  relay (rxEvent 1234 3 s) = relay s /\
  powering (rxEvent 1234 3 s) = powering s /\
  onMs (rxEvent 1234 3 s) = onMs s.
Proof.
  apply (same_mode_is_noop 1234 3 0 [9] (frame_state [CMD_MODE; 0; 9])).
  - lia.
  - reflexivity.
  - reflexivity.
Defined.

Ltac state_simpl :=
  cbn [battCutoff alwaysOn rqShutdown powering onMs lastPir battPct battT
       pin_relay wire_rx serial
       set_alwaysOn set_rqShutdown set_powering set_onMs set_lastPir
       set_battPct set_battT set_wire_rx digitalWrite_relay println
       relayOn relayOff applyRelay state_of bind fst snd andb orb negb Bool.eqb] in *.

(** Whatever the buffer holds, the handler does one of four things. *)
Lemma rxEvent_cases (now n : Z) (s : state) :
  rxEvent now n s = s \/
  rxEvent now n s = set_wire_rx [] s \/
  rxEvent now n s = set_wire_rx [] (set_rqShutdown true s) \/
  exists nm, nm <> alwaysOn s /\
    rxEvent now n s = set_wire_rx [] (applyRelay now (set_alwaysOn nm s)).
Proof.
  remember (rxEvent now n s) as r eqn:Hr. unfold rxEvent in Hr.
  destruct (n =? 0); [now left|]. right.
  destruct s as [bc ao rq pw om lp bp bt pin wr sr].
  unfold Wire_read in Hr. state_simpl.
  destruct wr as [|c rest].
  - (* nothing to read: [cmd] is 255 *)
    change (u8 (-1) =? CMD_MODE) with false in Hr.
    change (u8 (-1) =? CMD_SHUT) with false in Hr.
    state_simpl. now left.
  - destruct ((u8 c =? CMD_MODE) && (n >=? 2)).
    + destruct rest as [|b rest']; state_simpl.
      * change (negb (-1 =? 0)) with true in Hr.
        destruct ao; state_simpl; [now left|].
        right. right. exists true. split; [discriminate|assumption].
      * destruct (b =? 0), ao; state_simpl;
          erewrite drain_from in Hr by reflexivity;
          try (now left); right; right;
          [exists false | exists true]; (split; [discriminate|assumption]).
    + destruct (u8 c =? CMD_SHUT); state_simpl;
        erewrite drain_from in Hr by reflexivity; [right|]; now left.
Qed.

(** ** The battery check with the cutoff disabled *)

Lemma saveBattery_no_cutoff (adc : nat -> Z) (s : state) :
  battCutoff s = false ->
  saveBattery adc s =
  Running (set_battPct (u8 (constrain (percent_byte (voltage (readAdc adc))) 0 100)) s).
Proof.
  intros Hc. unfold saveBattery.
  destruct s as [bc ao rq pw om lp bp bt pin wr sr]. state_simpl. subst bc.
  reflexivity.
Qed.

Lemma loop_battery_returns (i : loop_in) (s : state) :
  battCutoff s = false ->
  exists bp bt, loop_battery i s = Running (set_battPct bp (set_battT bt s)).
Proof.
  intros Hc. unfold loop_battery.
  destruct (sub32 (li_millis_due i) (battT s) >=? 10000).
  - rewrite saveBattery_no_cutoff by (destruct s; assumption).
    eexists. eexists. reflexivity.
  - exists (battPct s), (battT s). destruct s; reflexivity.
Qed.

Lemma loop_returns (i : loop_in) (s : state) :
  battCutoff s = false ->
  exists bp bt,
    loop i s =
    Running (loop_shutdown (loop_timeout i (loop_pir i (set_battPct bp (set_battT bt s))))).
Proof.
  intros Hc. destruct (loop_battery_returns i s Hc) as (bp & bt & E).
  exists bp, bt. unfold loop. rewrite E. reflexivity.
Qed.

Lemma setup_returns (i : setup_in) (s : state) :
  battCutoff s = false ->
  exists bp,
    setup i s =
    Running (set_battT (su_millis_batt i)
               (set_battPct bp
                  (set_lastPir (su_pir i)
                     (set_onMs (su_millis_on i)
                        (set_powering true (relayOn (println MsgBanner s))))))).
Proof.
  intros Hc. unfold setup.
  rewrite saveBattery_no_cutoff by (destruct s; assumption).
  eexists. reflexivity.
Qed.

(** ** Invariants of the reachable states *)

Ltac loop_blocks :=
  unfold loop_shutdown, loop_timeout, loop_pir, consistent, relay, relayIsOn, mode,
    RELAY_ON_STATE, HIGH, LOW in *.

Lemma inv_setup (i : setup_in) : exists s, setup i initial = Running s /\ inv s.
Proof.
  destruct (setup_returns i initial eq_refl) as (bp & E).
  eexists. split; [exact E|]. unfold inv, consistent. cbn. auto.
Qed.

Lemma inv_loop (i : loop_in) (s : state) :
  inv s -> exists s', loop i s = Running s' /\ inv s'.
Proof.
  intros (Hc & Hk & Ha).
  destruct (loop_returns i s Hc) as (bp & bt & E).
  eexists. split; [exact E|].
  destruct s as [bc ao rq pw om lp bp0 bt0 pin wr sr].
  unfold inv. loop_blocks. state_simpl. subst bc.
  destruct ao; state_simpl.
  - repeat split; auto.
  - destruct (li_pir i && negb lp); state_simpl;
      [|destruct pw; state_simpl];
      try destruct (sub32 (li_millis_hold i) _ >=? 60000); state_simpl;
      destruct rq; state_simpl; repeat split; auto; discriminate.
Qed.

Lemma inv_rxEvent (now n : Z) (s : state) : inv s -> inv (rxEvent now n s).
Proof.
  intros (Hc & Hk & Ha).
  destruct (rxEvent_cases now n s) as [E|[E|[E|(nm & Hnm & E)]]]; rewrite E; clear E;
    destruct s as [bc ao rq pw om lp bp bt pin wr sr];
    unfold inv, consistent, relayIsOn, RELAY_ON_STATE, HIGH in *; state_simpl; auto.
  destruct nm; state_simpl; repeat split; auto; discriminate.
Qed.

Lemma inv_step (e : event) (s : state) :
  inv s -> exists s', step e s = Running s' /\ inv s'.
Proof.
  intros Hi. destruct e as [i|now frame|]; cbn [step].
  - apply inv_loop; assumption.
  - eexists. split; [reflexivity|]. unfold onReceive. apply inv_rxEvent.
    destruct s; exact Hi.
  - eexists. split; [reflexivity|assumption].
Qed.

Lemma reachable_inv (o : outcome) :
  reachable o -> exists s, o = Running s /\ inv s.
Proof.
  induction 1 as [i|e s Hr IH].
  - apply inv_setup.
  - destruct IH as (s0 & E & Hi). injection E as <-. apply inv_step; assumption.
Qed.

Lemma reachable_run (es : list event) :
  forall o, reachable o -> reachable (run es o).
Proof.
  induction es as [|e es IH]; intros o Hr; cbn [run]; [assumption|].
  apply IH. destruct (reachable_inv o Hr) as (s & -> & _). cbn [bind].
  apply reach_step; assumption.
Qed.

(** C10. In every reachable state of the program as shipped the cutoff
    flag is false, so no operation has halted and [saveBattery] returns. *)
Theorem cutoff_never_enabled (o : outcome) :
  reachable o ->
  exists s, o = Running s /\ battCutoff s = false /\
    forall adc, exists s', saveBattery adc s = Running s'.
Proof.
  intros Hr. destruct (reachable_inv o Hr) as (s & E & Hc & _).
  exists s. repeat split; try assumption.
  intros adc. rewrite saveBattery_no_cutoff by assumption. eexists; reflexivity.
Qed.

Lemma cutoff_never_enabled_witness :
  exists s, run [EvLoop (poll 20000 HIGH); EvReceive 20100 [CMD_MODE; 0]]
                (setup boot initial) = Running s /\
    battCutoff s = false /\
    forall adc, exists s', saveBattery adc s = Running s'.
Proof.
  apply (cutoff_never_enabled
           (run [EvLoop (poll 20000 HIGH); EvReceive 20100 [CMD_MODE; 0]]
                (setup boot initial))).
  apply reachable_run. apply reach_setup.
Defined.



(** ** Malformed frames *)

(** C8, as stated, fails for over-length frames: after boot, a SET_MODE
    frame with one byte too many still switches the mode and the relay,
    and a shutdown frame with one byte too many still sets the request. *)
Lemma overlength_frame_changes_state :
  let s := state_of (setup boot initial) in
  (over_length [CMD_MODE; 0; 255] /\
   mode s = ALWAYS_ON /\ relay s = ON /\
   mode (onReceive 100 [CMD_MODE; 0; 255] s) = PIR_TRIGGERED /\
   relay (onReceive 100 [CMD_MODE; 0; 255] s) = OFF) /\
  (over_length [CMD_SHUT; 255] /\
   rqShutdown s = false /\
   rqShutdown (onReceive 100 [CMD_SHUT; 255] s) = true).
Proof.
  split; split.
  - exists [CMD_MODE; 0], 255, []. split; [left; exists 0|]; reflexivity.
  - vm_compute. repeat split.
  - exists [CMD_SHUT], 255, []. split; [right|]; reflexivity.
  - vm_compute. repeat split.
Qed.

(** C8, amended. A frame whose leading byte is neither SET_MODE nor
    REQUEST_SHUTDOWN, and a short frame, change no variable and leave the
    receive buffer empty; an over-length frame is handled as the
    well-formed frame it starts with, its extra bytes read and discarded.
    The handler is a total function: it reports no error and always
    returns. *)
Theorem malformed_frames_tolerated
    (now : Z) (bad good extra : list Z) (s : state) :
  unknown_leading bad \/ short_frame bad ->
  well_formed good ->
  onReceive now bad s = set_wire_rx [] s /\
  onReceive now (good ++ extra) s = onReceive now good s /\
  wire_rx (onReceive now (good ++ extra) s) = [].
Proof.
  intros Hbad Hgood. split; [|split].
  - unfold onReceive. destruct Hbad as [Hu|[->| ->]].
    + destruct bad as [|c rest]; [contradiction|].
      destruct Hu as (Hb & Hm & Hs).
      assert (Hc : u8 c = c) by (apply Z.mod_small; exact Hb).
      rewrite (rxEvent_ignored now _ c rest).
      * destruct s; reflexivity.
      * cbn [length]. lia.
      * destruct s; reflexivity.
      * rewrite Hc. assumption.
      * left. rewrite Hc. assumption.
    + destruct s; reflexivity.
    + rewrite (rxEvent_ignored now _ CMD_MODE []).
      * destruct s; reflexivity.
      * discriminate.
      * destruct s; reflexivity.
      * discriminate.
      * right. cbn. lia.
  - unfold onReceive. destruct Hgood as [(b & ->)| ->]; cbn [app].
    + rewrite (rxEvent_set_mode now _ b extra), (rxEvent_set_mode now _ b []);
        try (destruct s; reflexivity); try (cbn [length]; lia).
      destruct s as [bc ao rq pw om lp bp bt pin wr sr]. state_simpl.
      destruct (negb (b =? 0)), ao; reflexivity.
    + rewrite (rxEvent_shutdown now _ extra), (rxEvent_shutdown now _ []);
        try (destruct s; reflexivity); try (cbn [length]; lia).
  - unfold onReceive. destruct Hgood as [(b & ->)| ->]; cbn [app].
    + rewrite (rxEvent_set_mode now _ b extra);
        try (destruct s; reflexivity); cbn [length]; lia.
    + rewrite (rxEvent_shutdown now _ extra);
        try (destruct s; reflexivity); cbn [length]; lia.
Qed.

Lemma malformed_frames_tolerated_witness :
  onReceive 42 [0xA5; 1; 2] (state_of (setup boot initial)) =
    set_wire_rx [] (state_of (setup boot initial)) /\
  onReceive 42 ([CMD_SHUT] ++ [9; 9]) (state_of (setup boot initial)) =
    onReceive 42 [CMD_SHUT] (state_of (setup boot initial)) /\
  wire_rx (onReceive 42 ([CMD_SHUT] ++ [9; 9]) (state_of (setup boot initial))) = [].
Proof.
  apply (malformed_frames_tolerated 42 [0xA5; 1; 2] [CMD_SHUT] [9; 9]
           (state_of (setup boot initial))).
  - left. cbn. unfold is_byte, CMD_MODE, CMD_SHUT. lia.
  - right. reflexivity.
Defined.

(** ** The hold window *)

Lemma sub32_add32 (t d : Z) : 0 <= d < two32 -> sub32 (add32 t d) t = d.
Proof.
  intros Hd. unfold sub32, add32.
  rewrite Zminus_mod_idemp_l. replace (t + d - t) with d by lia.
  apply Z.mod_small. assumption.
Qed.

(** C2, as stated, fails on two reachable states in which the relay has
    been ON since [t0 = 1000]: with a shutdown request pending, the tick at
    [t0 + 59999] turns the relay OFF; with the motion input back to LOW, a
    tick at [t0 + 60000] that sees a new rising edge re-arms the timer and
    leaves the relay ON. *)
Lemma hold_window_counterexample :
  let s1 := state_of (run [EvReceive 100 [CMD_MODE; 0]; EvLoop (poll 1000 HIGH);
                           EvReceive 2000 [CMD_SHUT]] (setup boot initial)) in
  let s2 := state_of (run [EvReceive 100 [CMD_MODE; 0]; EvLoop (poll 1000 HIGH);
                           EvLoop (poll 30000 LOW)] (setup boot initial)) in
  (mode s1 = PIR_TRIGGERED /\ relay s1 = ON /\ onMs s1 = 1000 /\
   relay (state_of (loop (poll (1000 + 59999) HIGH) s1)) = OFF) /\
  (mode s2 = PIR_TRIGGERED /\ relay s2 = ON /\ onMs s2 = 1000 /\
   relay (state_of (loop (poll (1000 + 60000) HIGH) s2)) = ON).
Proof. vm_compute. repeat split. Qed.

(** C2, amended. In PIR_TRIGGERED mode, for every reachable state in which
    the relay turned ON at [t0] and has stayed ON, and every tick on which
    the motion input shows no new rising edge: the tick at [t0 + 60000] ms
    (modulo [2^32]) sets the relay OFF, and the tick at [t0 + 59999] ms
    leaves it ON with its timer, provided no shutdown request is pending. *)
Theorem hold_window_timeout (i : loop_in) (s : state) (t0 : Z) :
  reachable (Running s) ->
  mode s = PIR_TRIGGERED -> relay s = ON -> onMs s = t0 ->
  rising i s = false ->
  exists s', loop i s = Running s' /\
    (li_millis_hold i = add32 t0 60000 ->
       relay s' = OFF /\ powering s' = false) /\
    (li_millis_hold i = add32 t0 59999 -> rqShutdown s = false ->
       relay s' = ON /\ powering s' = true /\ onMs s' = t0).
Proof.
  intros Hr Hm Hon Ht Hedge. unfold rising in Hedge.
  destruct (reachable_inv _ Hr) as (s0 & E & Hc & Hk & _). injection E as <-.
  destruct (loop_returns i s Hc) as (bp & bt & El).
  eexists. split; [exact El|].
  destruct s as [bc ao rq pw om lp bp0 bt0 pin wr sr].
  loop_blocks. state_simpl. subst om.
  destruct ao; [discriminate|]. destruct pin; [|discriminate].
  cbn in Hk. subst pw. state_simpl. rewrite Hedge. state_simpl.
  split.
  - intros ->. rewrite sub32_add32 by (unfold two32; lia).
    change (60000 >=? 60000) with true. state_simpl.
    destruct rq; state_simpl; split; reflexivity.
  - intros -> ->. rewrite sub32_add32 by (unfold two32; lia).
    change (59999 >=? 60000) with false. state_simpl.
    repeat split.
Qed.

Lemma armed_reachable : reachable (Running armed).
Proof.
  assert (E : run armed_events (setup boot initial) = Running armed)
    by (vm_compute; reflexivity).
  rewrite <- E. apply reachable_run. apply reach_setup.
Qed.

Lemma hold_window_timeout_witness :
  exists s',
    loop (poll 61000 HIGH) armed = Running s' /\
    (li_millis_hold (poll 61000 HIGH) = add32 1000 60000 ->
       relay s' = OFF /\ powering s' = false) /\
    (li_millis_hold (poll 61000 HIGH) = add32 1000 59999 ->
       rqShutdown armed = false ->
       relay s' = ON /\ powering s' = true /\ onMs s' = 1000).
Proof.
  apply (hold_window_timeout (poll 61000 HIGH) armed 1000 armed_reachable).
  - reflexivity.
  - reflexivity.
  - reflexivity.
  - reflexivity.
Defined.

(** ** Shutdown requests *)





(** ** Motion edges *)






(** ** The battery monitor *)

Lemma run_halted (es : list event) (h : state) : run es (Halted h) = Halted h.
Proof. induction es as [|e es IH]; cbn [run bind]; [reflexivity|exact IH]. Qed.

(** C6. With the cutoff enabled and a sample whose voltage compares below
    [VBAT_CUT], the battery check drives the relay pin to its OFF level and
    halts; the loop iteration or the boot that made the check halts with
    it, and whatever events follow, the run stays halted with the relay
    OFF. *)
Theorem cutoff_is_terminal (adc : nat -> Z) (s : state) (es : list event) :
  battCutoff s = true ->
  F32.ltb (voltage (readAdc adc)) VBAT_CUT = true ->
  exists h,
    saveBattery adc s = Halted h /\ relay h = OFF /\
    run es (saveBattery adc s) = Halted h /\
    (forall i, li_adc i = adc -> sub32 (li_millis_due i) (battT s) >= 10000 ->
       exists h', loop i s = Halted h' /\ relay h' = OFF /\
                  run es (loop i s) = Halted h') /\
    (forall i, su_adc i = adc ->
       exists h', setup i s = Halted h' /\ relay h' = OFF /\
                  run es (setup i s) = Halted h').
Proof.
  intros Hc Hv. unfold saveBattery.
  destruct s as [bc ao rq pw om lp bp bt pin wr sr]. state_simpl. subst bc.
  rewrite Hv. state_simpl.
  eexists. split; [reflexivity|]. split; [reflexivity|].
  split; [apply run_halted|]. split.
  - intros i Hadc Hdue. unfold loop, loop_battery, saveBattery. state_simpl.
    replace (sub32 (li_millis_due i) bt >=? 10000) with true
      by (symmetry; apply Z.geb_le; lia).
    rewrite Hadc, Hv. state_simpl.
    eexists. split; [reflexivity|]. split; [reflexivity|apply run_halted].
  - intros i Hadc. unfold setup, saveBattery. state_simpl.
    rewrite Hadc, Hv. state_simpl.
    eexists. split; [reflexivity|]. split; [reflexivity|apply run_halted].
Qed.

Lemma cutoff_is_terminal_witness :
  exists h,
    saveBattery (adc_const 200) cutoff_enabled_state = Halted h /\ relay h = OFF /\
    run [EvReceive 7 [CMD_MODE; 1]; EvLoop (poll 20000 HIGH)]
        (saveBattery (adc_const 200) cutoff_enabled_state) = Halted h /\
    (forall i, li_adc i = adc_const 200 ->
       sub32 (li_millis_due i) (battT cutoff_enabled_state) >= 10000 ->
       exists h', loop i cutoff_enabled_state = Halted h' /\ relay h' = OFF /\
                  run [EvReceive 7 [CMD_MODE; 1]; EvLoop (poll 20000 HIGH)]
                      (loop i cutoff_enabled_state) = Halted h') /\
    (forall i, su_adc i = adc_const 200 ->
       exists h', setup i cutoff_enabled_state = Halted h' /\ relay h' = OFF /\
                  run [EvReceive 7 [CMD_MODE; 1]; EvLoop (poll 20000 HIGH)]
                      (setup i cutoff_enabled_state) = Halted h').
Proof.
  apply (cutoff_is_terminal (adc_const 200) cutoff_enabled_state
           [EvReceive 7 [CMD_MODE; 1]; EvLoop (poll 20000 HIGH)]).
  - reflexivity.
  - vm_compute. reflexivity.
Defined.

Lemma readAdc_range (adc : nat -> Z) :
  (forall k, 0 <= adc k <= 1023) -> 0 <= readAdc adc <= 1023.
Proof.
  intros H. unfold readAdc, u16, two32. cbn [seq fold_left].
  pose proof (H 0%nat). pose proof (H 1%nat). pose proof (H 2%nat).
  pose proof (H 3%nat). pose proof (H 4%nat). pose proof (H 5%nat).
  pose proof (H 6%nat). pose proof (H 7%nat).
  rewrite !Z.add_0_l.
  rewrite (Z.mod_small (adc 0%nat)) by lia.
  rewrite (Z.mod_small (adc 0%nat + adc 1%nat)) by lia.
  rewrite (Z.mod_small (adc 0%nat + adc 1%nat + adc 2%nat)) by lia.
  rewrite (Z.mod_small (adc 0%nat + adc 1%nat + adc 2%nat + adc 3%nat)) by lia.
  rewrite (Z.mod_small (adc 0%nat + adc 1%nat + adc 2%nat + adc 3%nat + adc 4%nat))
    by lia.
  rewrite (Z.mod_small (adc 0%nat + adc 1%nat + adc 2%nat + adc 3%nat + adc 4%nat
                        + adc 5%nat)) by lia.
  rewrite (Z.mod_small (adc 0%nat + adc 1%nat + adc 2%nat + adc 3%nat + adc 4%nat
                        + adc 5%nat + adc 6%nat)) by lia.
  rewrite (Z.mod_small (adc 0%nat + adc 1%nat + adc 2%nat + adc 3%nat + adc 4%nat
                        + adc 5%nat + adc 6%nat + adc 7%nat)) by lia.
  rewrite Z.shiftr_div_pow2 by lia. change (2 ^ 3) with 8.
  set (t := adc 0%nat + adc 1%nat + adc 2%nat + adc 3%nat + adc 4%nat
            + adc 5%nat + adc 6%nat + adc 7%nat) in *.
  assert (0 <= t / 8 <= 1023).
  { split; [apply Z.div_pos; lia|]. apply Z.div_le_upper_bound; lia. }
  rewrite Z.mod_small by lia. assumption.
Qed.

Lemma constrain_range (amt low high : Z) :
  low <= high -> low <= constrain amt low high <= high.
Proof.
  intros H. unfold constrain.
  destruct (amt <? low) eqn:E1; [lia|].
  destruct (amt >? high) eqn:E2; [lia|].
  apply Z.ltb_ge in E1. rewrite Z.gtb_ltb in E2. apply Z.ltb_ge in E2. lia.
Qed.

(** C7. For every raw reading in the range of the averaged 10-bit ADC, the
    percentage that [saveBattery] stores, and that [txEvent] reports, is
    the clamp to 0..100 of the byte the linear formula gives, and so lies
    in 0..100. *)
Theorem battery_percent_clamped (adc : nat -> Z) (s : state) :
  (forall k, 0 <= adc k <= 1023) ->
  let raw := readAdc adc in
  let s' := state_of (saveBattery adc s) in
  0 <= raw <= 1023 /\
  battPct s' = constrain (percent_byte (voltage raw)) 0 100 /\
  0 <= battPct s' <= 100 /\
  0 <= txEvent s' <= 100.
Proof.
  intros H raw s'. split; [apply readAdc_range; assumption|].
  pose proof (constrain_range (percent_byte (voltage raw)) 0 100 ltac:(lia)) as Hr.
  assert (E : battPct s' = constrain (percent_byte (voltage raw)) 0 100).
  { subst s'. unfold saveBattery. fold raw.
    destruct s as [bc ao rq pw om lp bp bt pin wr sr]. state_simpl.
    destruct (bc && _); state_simpl; unfold u8; apply Z.mod_small; lia. }
  unfold txEvent. rewrite E. repeat split; lia.
Qed.

Lemma battery_percent_clamped_witness :
  let raw := readAdc (adc_const 1023) in
  let s' := state_of (saveBattery (adc_const 1023) initial) in
  0 <= raw <= 1023 /\
  battPct s' = constrain (percent_byte (voltage raw)) 0 100 /\
  0 <= battPct s' <= 100 /\
  0 <= txEvent s' <= 100.
Proof.
  apply (battery_percent_clamped (adc_const 1023) initial).
  intros k. unfold adc_const. lia.
Defined.

(* ================================================================== *)
(** * Further properties *)


Lemma timed_out_reachable : reachable (Running timed_out).
Proof.
  assert (E : run (armed_events ++ [EvLoop (poll 61000 HIGH)]) (setup boot initial)
              = Running timed_out) by (vm_compute; reflexivity).
  rewrite <- E. apply reachable_run. apply reach_setup.
Qed.

(** ** The handler as a function of the frame *)

(** With the frame in the buffer and its length as [n], the reads, the
    length test and the drain loop of [rxEvent] amount to executing the
    decoded command and emptying the buffer. *)
Lemma onReceive_effect (now : Z) (frame : list Z) (s : state) :
  onReceive now frame s = set_wire_rx [] (execute now (decode frame) s).
Proof.
  unfold onReceive, rxEvent.
  destruct s as [bc ao rq pw om lp bp bt pin wr sr].
  destruct frame as [|c rest].
  - reflexivity.
  - replace (Z.of_nat (length (c :: rest)) =? 0) with false
      by (symmetry; apply Z.eqb_neq; cbn [length]; lia).
    unfold Wire_read. state_simpl. unfold decode, execute.
    destruct rest as [|b rest'].
    + (* one byte: [n >= 2] fails *)
      change (Z.of_nat (length [c]) >=? 2) with false. rewrite andb_false_r.
      destruct (u8 c =? CMD_MODE) eqn:Em.
      * apply Z.eqb_eq in Em. rewrite Em.
        change (CMD_MODE =? CMD_SHUT) with false. reflexivity.
      * destruct (u8 c =? CMD_SHUT); reflexivity.
    + replace (Z.of_nat (length (c :: b :: rest')) >=? 2) with true
        by (symmetry; apply Z.geb_le; cbn [length]; lia).
      rewrite andb_true_r.
      destruct (u8 c =? CMD_MODE).
      * state_simpl.
        destruct (negb (b =? 0)), ao; state_simpl;
          erewrite drain_from by reflexivity; reflexivity.
      * destruct (u8 c =? CMD_SHUT); state_simpl;
          erewrite drain_from by reflexivity; reflexivity.
Qed.

(** X1. Receiving the same frame a second time, at whatever time, changes
    nothing more: every command of the handler is idempotent. *)
Theorem repeated_frame_is_idempotent (now1 now2 : Z) (frame : list Z) (s : state) :
  onReceive now2 frame (onReceive now1 frame s) = onReceive now1 frame s.
Proof.
  rewrite !onReceive_effect.
  destruct s as [bc ao rq pw om lp bp bt pin wr sr].
  destruct (decode frame) as [nm| |]; unfold execute; state_simpl;
    [destruct nm, ao; reflexivity|reflexivity|reflexivity].
Qed.

(** X2. The mode is written by nothing but a SET_MODE command: [loop] and
    [setup] leave [alwaysOn] as it was, also when they halt, and after the
    handler it is the payload of a SET_MODE frame or else as it was. *)
Theorem mode_written_only_by_set_mode
    (li : loop_in) (si : setup_in) (now : Z) (frame : list Z) (s : state) :
  alwaysOn (state_of (loop li s)) = alwaysOn s /\
  alwaysOn (state_of (setup si s)) = alwaysOn s /\
  alwaysOn (onReceive now frame s) =
    match decode frame with CmdSetMode nm => nm | _ => alwaysOn s end.
Proof.
  destruct s as [bc ao rq pw om lp bp bt pin wr sr]. split; [|split].
  - unfold loop, loop_battery, saveBattery, LowPower_powerDown. state_simpl.
    destruct (sub32 (li_millis_due li) bt >=? 10000); state_simpl;
      try (destruct (bc && _); state_simpl; [reflexivity|]);
      loop_blocks; state_simpl;
      (destruct ao; state_simpl; [reflexivity|]);
      (destruct (li_pir li && negb lp); state_simpl;
       [|destruct pw; state_simpl]);
      try destruct (sub32 (li_millis_hold li) _ >=? 60000); state_simpl;
      destruct rq; reflexivity.
  - unfold setup, saveBattery, LowPower_powerDown. state_simpl.
    destruct (bc && _); reflexivity.
  - rewrite onReceive_effect.
    destruct (decode frame) as [nm| |]; unfold execute; state_simpl;
      [destruct nm, ao; reflexivity|reflexivity|reflexivity].
Qed.

(** X3. The shutdown request is set by nothing but a shutdown command and
    cleared by nothing but a loop iteration in PIR mode: after an iteration
    that returns it is pending exactly if it was pending in always-on mode,
    and after the handler it is pending if the frame is a shutdown command
    or it was pending before. *)
Theorem shutdown_flag_discipline
    (li : loop_in) (now : Z) (frame : list Z) (s s' : state) :
  loop li s = Running s' ->
  rqShutdown s' = alwaysOn s && rqShutdown s /\
  rqShutdown (onReceive now frame s) =
    match decode frame with CmdShutdown => true | _ => rqShutdown s end.
Proof.
  intros H. destruct s as [bc ao rq pw om lp bp bt pin wr sr]. split.
  - unfold loop, loop_battery, saveBattery, LowPower_powerDown in H. state_simpl.
    destruct (sub32 (li_millis_due li) bt >=? 10000); state_simpl;
      try (destruct (bc && _); state_simpl; [discriminate|]);
      injection H as <-; loop_blocks; state_simpl;
      (destruct ao; state_simpl; [reflexivity|]);
      (destruct (li_pir li && negb lp); state_simpl;
       [|destruct pw; state_simpl]);
      try destruct (sub32 (li_millis_hold li) _ >=? 60000); state_simpl;
      destruct rq; reflexivity.
  - rewrite onReceive_effect.
    destruct (decode frame) as [nm| |]; unfold execute; state_simpl;
      [destruct nm, ao; reflexivity|reflexivity|reflexivity].
Qed.

Lemma shutdown_flag_discipline_witness :
  rqShutdown (state_of (loop (poll 2050 HIGH) (onReceive 2000 [CMD_SHUT] armed)))
    = alwaysOn (onReceive 2000 [CMD_SHUT] armed)
      && rqShutdown (onReceive 2000 [CMD_SHUT] armed) /\
  rqShutdown (onReceive 3000 [CMD_SHUT; 1] (onReceive 2000 [CMD_SHUT] armed)) =
    match decode [CMD_SHUT; 1] with
    | CmdShutdown => true
    | _ => rqShutdown (onReceive 2000 [CMD_SHUT] armed)
    end.
Proof.
  apply (shutdown_flag_discipline (poll 2050 HIGH) 3000 [CMD_SHUT; 1]
           (onReceive 2000 [CMD_SHUT] armed)
           (state_of (loop (poll 2050 HIGH) (onReceive 2000 [CMD_SHUT] armed)))).
  vm_compute. reflexivity.
Defined.

(** ** The relay in the two modes *)



(** X5. In PIR_TRIGGERED mode with the relay ON since [onMs], a tick
    without a new rising edge and without a pending shutdown request, taken
    [d] ms later on the 32-bit clock, leaves the relay ON exactly if
    [d < 60000], also when the clock has wrapped around in between. *)
Theorem hold_window_by_elapsed (i : loop_in) (s : state) (d : Z) :
  reachable (Running s) ->
  mode s = PIR_TRIGGERED -> relay s = ON ->
  rising i s = false -> rqShutdown s = false ->
  0 <= d < two32 -> li_millis_hold i = add32 (onMs s) d ->
  exists s', loop i s = Running s' /\
    relay s' = (if d <? 60000 then ON else OFF) /\
    powering s' = (d <? 60000) /\ onMs s' = onMs s.
Proof.
  intros Hr Hm Hon Hedge Hq Hd Ht. unfold rising in Hedge.
  destruct (reachable_inv _ Hr) as (s0 & E & Hc & Hk & _). injection E as <-.
  destruct (loop_returns i s Hc) as (bp & bt & El).
  eexists. split; [exact El|].
  destruct s as [bc ao rq pw om lp bp0 bt0 pin wr sr].
  loop_blocks. state_simpl. subst rq.
  destruct ao; [discriminate|]. destruct pin; [|discriminate].
  cbn in Hk. subst pw. state_simpl. rewrite Hedge. state_simpl.
  rewrite Ht, sub32_add32 by assumption.
  rewrite Z.geb_leb, Z.leb_antisym.
  destruct (d <? 60000); state_simpl; repeat split.
Qed.

Lemma hold_window_by_elapsed_witness :
  exists s', loop (poll 31000 HIGH) armed = Running s' /\
    relay s' = (if 30000 <? 60000 then ON else OFF) /\
    powering s' = (30000 <? 60000) /\ onMs s' = onMs armed.
Proof.
  apply (hold_window_by_elapsed (poll 31000 HIGH) armed 30000 armed_reachable).
  - reflexivity.
  - reflexivity.
  - reflexivity.
  - reflexivity.
  - unfold two32. lia.
  - reflexivity.
Defined.

(** One poll without a rising edge, the relay being OFF. *)
Lemma loop_stays_off (i : loop_in) (s : state) :
  inv s -> relayIsOn s = false -> rising i s = false ->
  exists s', loop i s = Running s' /\ inv s' /\ relayIsOn s' = false /\
    lastPir s' = li_pir i /\ onMs s' = onMs s.
Proof.
  intros Hi Hoff Hedge. destruct (inv_loop i s Hi) as (s' & El & Hi').
  exists s'. split; [assumption|]. split; [assumption|].
  destruct Hi as (Hc & Hk & Ha). destruct (loop_returns i s Hc) as (bp & bt & E).
  rewrite E in El. injection El as <-. unfold rising in Hedge.
  destruct s as [bc ao rq pw om lp bp0 bt0 pin wr sr].
  loop_blocks. state_simpl.
  destruct pin; [discriminate|]. cbn in Hk. subst pw.
  destruct ao; [specialize (Ha eq_refl); discriminate|].
  state_simpl. rewrite Hedge. state_simpl.
  destruct rq; state_simpl; repeat split.
Qed.

(** X6. Once the relay is OFF, loop iterations turn it ON only on a rising
    edge of the motion input: over any sequence of polls without a rising
    edge (a HIGH that lasts, or LOW) the relay stays OFF and the timer
    untouched. *)
Theorem relay_off_until_rising_edge (polls : list loop_in) :
  forall s, reachable (Running s) -> relay s = OFF ->
  quiet (lastPir s) polls = true ->
  exists s', run (map EvLoop polls) (Running s) = Running s' /\
    relay s' = OFF /\ powering s' = false /\ onMs s' = onMs s.
Proof.
  intros s Hr Hoff Hq.
  destruct (reachable_inv _ Hr) as (s0 & E & Hi). injection E as <-. clear Hr.
  assert (Hoff' : relayIsOn s = false).
  { unfold relay in Hoff. destruct (relayIsOn s); [discriminate|reflexivity]. }
  clear Hoff. revert s Hi Hoff' Hq.
  induction polls as [|i polls IH]; intros s Hi Hoff Hq.
  - exists s. destruct Hi as (_ & Hk & _). unfold relay, consistent in *.
    rewrite Hk, Hoff. repeat split.
  - cbn [quiet] in Hq. apply andb_true_iff in Hq. destruct Hq as (Hq1 & Hq2).
    apply negb_true_iff in Hq1.
    destruct (loop_stays_off i s Hi Hoff Hq1) as (s1 & E1 & Hi1 & Hoff1 & Hl1 & Ho1).
    rewrite <- Hl1 in Hq2.
    destruct (IH s1 Hi1 Hoff1 Hq2) as (s' & E' & Hr' & Hp' & Ho').
    exists s'. cbn [map run bind step]. rewrite E1.
    split; [assumption|]. repeat split; congruence.
Qed.

Lemma relay_off_until_rising_edge_witness :
  exists s',
    run (map EvLoop [poll 61050 HIGH; poll 61100 HIGH; poll 61150 LOW]) (Running timed_out)
      = Running s' /\
    relay s' = OFF /\ powering s' = false /\ onMs s' = onMs timed_out.
Proof.
  apply (relay_off_until_rising_edge
           [poll 61050 HIGH; poll 61100 HIGH; poll 61150 LOW] timed_out
           timed_out_reachable).
  - reflexivity.
  - reflexivity.
Defined.

(** X7. In PIR_TRIGGERED mode a rising edge switches the relay ON and
    restarts the timer whether the relay was ON or OFF, provided no shutdown
    request is pending and fewer than 60000 ms pass between the clock read
    of the edge and that of the timeout check. *)
Theorem rising_edge_powers_the_pi (i : loop_in) (s : state) (d : Z) :
  reachable (Running s) -> mode s = PIR_TRIGGERED ->
  rising i s = true -> rqShutdown s = false ->
  0 <= d < 60000 -> li_millis_hold i = add32 (li_millis_pir i) d ->
  exists s', loop i s = Running s' /\
    relay s' = ON /\ powering s' = true /\ onMs s' = li_millis_pir i /\
    printed MsgPirRise s' = S (printed MsgPirRise s).
Proof.
  intros Hr Hm Hedge Hq Hd Ht. unfold rising in Hedge.
  destruct (reachable_inv _ Hr) as (s0 & E & Hc & _). injection E as <-.
  destruct (loop_returns i s Hc) as (bp & bt & El).
  eexists. split; [exact El|].
  destruct s as [bc ao rq pw om lp bp0 bt0 pin wr sr].
  loop_blocks. unfold printed. state_simpl. subst rq.
  destruct ao; [discriminate|]. state_simpl. rewrite Hedge. state_simpl.
  rewrite Ht, sub32_add32 by (unfold two32; lia).
  replace (d >=? 60000) with false
    by (symmetry; rewrite Z.geb_leb; apply Z.leb_gt; lia).
  state_simpl. repeat split.
Qed.

Lemma rising_edge_powers_the_pi_witness :
  exists s', loop (poll 70000 HIGH)
                  (state_of (loop (poll 65000 LOW) timed_out)) = Running s' /\
    relay s' = ON /\ powering s' = true /\ onMs s' = li_millis_pir (poll 70000 HIGH) /\
    printed MsgPirRise s' =
      S (printed MsgPirRise (state_of (loop (poll 65000 LOW) timed_out))).
Proof.
  apply (rising_edge_powers_the_pi (poll 70000 HIGH)
           (state_of (loop (poll 65000 LOW) timed_out)) 0).
  - apply (reach_step (EvLoop (poll 65000 LOW)) timed_out timed_out_reachable).
  - vm_compute. reflexivity.
  - vm_compute. reflexivity.
  - vm_compute. reflexivity.
  - lia.
  - reflexivity.
Defined.

(** ** Boot, log and battery cadence *)

(** X8. Whatever the clock, the motion input and the ADC read, [setup]
    from the initial globals returns with the Pi powered: mode ALWAYS_ON,
    relay ON, no shutdown request, the timer and the battery timestamp at
    the two clock reads, [lastPir] at the input's level and a percentage in
    0..100. *)
Theorem boot_powers_pi (i : setup_in) :
  exists s, setup i initial = Running s /\
    mode s = ALWAYS_ON /\ relay s = ON /\ powering s = true /\
    rqShutdown s = false /\ onMs s = su_millis_on i /\
    lastPir s = su_pir i /\ battT s = su_millis_batt i /\
    battPct s = stored_percent (readAdc (su_adc i)) /\
    0 <= battPct s <= 100.
Proof.
  unfold stored_percent.
  pose proof (constrain_range (percent_byte (voltage (readAdc (su_adc i)))) 0 100
                ltac:(lia)) as Hrange.
  unfold setup. rewrite saveBattery_no_cutoff by reflexivity.
  eexists. split; [reflexivity|].
  unfold mode, relay, relayIsOn, initial. state_simpl.
  repeat split; unfold u8; rewrite Z.mod_small by lia; lia.
Qed.

(** X9. No operation moves the relay pin silently: whenever a loop
    iteration, a halting one included, or a handler call ends with the pin
    at another level, it has printed at least one line. *)
Theorem relay_change_is_logged
    (li : loop_in) (now n : Z) (s : state) :
  (pin_relay (state_of (loop li s)) <> pin_relay s ->
     (length (serial s) < length (serial (state_of (loop li s))))%nat) /\
  (pin_relay (rxEvent now n s) <> pin_relay s ->
     (length (serial s) < length (serial (rxEvent now n s)))%nat).
Proof.
  split.
  - destruct s as [bc ao rq pw om lp bp bt pin wr sr].
    unfold loop, loop_battery, saveBattery, LowPower_powerDown. state_simpl.
    destruct (sub32 (li_millis_due li) bt >=? 10000); state_simpl;
      try (destruct (bc && _); state_simpl; [cbn [length]; lia|]);
      loop_blocks; state_simpl;
      (destruct ao; state_simpl; [congruence|]);
      (destruct (li_pir li && negb lp); state_simpl;
       [|destruct pw; state_simpl]);
      try destruct (sub32 (li_millis_hold li) _ >=? 60000); state_simpl;
      destruct rq; state_simpl; cbn [length]; intros; try lia; congruence.
  - destruct (rxEvent_cases now n s) as [E|[E|[E|(nm & Hnm & E)]]]; rewrite E;
      destruct s as [bc ao rq pw om lp bp bt pin wr sr]; state_simpl;
      try congruence.
    destruct nm; state_simpl; cbn [length]; intros; lia.
Qed.

Lemma relay_change_is_logged_witness :
  (length (serial armed) < length (serial (state_of (loop (poll 61000%Z HIGH) armed))))%nat /\
  (length (serial (frame_state [CMD_MODE; 1%Z]))
   < length (serial (rxEvent 3%Z 2%Z (frame_state [CMD_MODE; 1%Z]))))%nat.
Proof.
  split.
  - apply (proj1 (relay_change_is_logged (poll 61000%Z HIGH) 3%Z 2%Z armed)).
    vm_compute. discriminate.
  - apply (proj2 (relay_change_is_logged (poll 61000%Z HIGH) 3%Z 2%Z
                    (frame_state [CMD_MODE; 1%Z]))).
    vm_compute. discriminate.
Defined.

(** X10. The battery is sampled when, and only when, at least 10000 ms
    have passed on the 32-bit clock since [battT]: an iteration taken [d] ms
    after [battT] keeps timestamp and percentage for [d < 10000], and
    otherwise stores the clock read that follows the test and the
    percentage of the new sample. *)
Theorem battery_cadence (i : loop_in) (s s' : state) (d : Z) :
  0 <= d < two32 -> li_millis_due i = add32 (battT s) d ->
  loop i s = Running s' ->
  if d <? 10000
  then battT s' = battT s /\ battPct s' = battPct s
  else battT s' = li_millis_batt i /\
       battPct s' = stored_percent (readAdc (li_adc i)).
Proof.
  intros Hd Ht H. unfold stored_percent.
  destruct s as [bc ao rq pw om lp bp bt pin wr sr].
  unfold loop, loop_battery, saveBattery, LowPower_powerDown in H. state_simpl.
  rewrite Ht, sub32_add32 in H by assumption.
  rewrite Z.geb_leb, Z.leb_antisym in H.
  destruct (d <? 10000); state_simpl;
    try (destruct (bc && _); state_simpl; [discriminate|]);
    injection H as <-; loop_blocks; state_simpl;
    (destruct ao; state_simpl; [split; reflexivity|]);
    (destruct (li_pir i && negb lp); state_simpl;
     [|destruct pw; state_simpl]);
    try destruct (sub32 (li_millis_hold i) _ >=? 60000); state_simpl;
    destruct rq; state_simpl; split; reflexivity.
Qed.

Lemma battery_cadence_witness :
  if 9995 <? 10000
  then battT (state_of (loop (poll 10000 LOW) booted)) = battT booted /\
       battPct (state_of (loop (poll 10000 LOW) booted)) = battPct booted
  else battT (state_of (loop (poll 10000 LOW) booted)) = li_millis_batt (poll 10000 LOW) /\
       battPct (state_of (loop (poll 10000 LOW) booted))
       = stored_percent (readAdc (li_adc (poll 10000 LOW))).
Proof.
  apply (battery_cadence (poll 10000 LOW) booted
           (state_of (loop (poll 10000 LOW) booted)) 9995).
  - unfold two32. lia.
  - reflexivity.
  - vm_compute. reflexivity.
Defined.

(** ** The battery figures *)

Lemma stored_percent_range (raw : Z) : 0 <= stored_percent raw <= 100.
Proof.
  unfold stored_percent.
  pose proof (constrain_range (percent_byte (voltage raw)) 0 100 ltac:(lia)).
  unfold u8. rewrite Z.mod_small by lia. lia.
Qed.

Lemma saveBattery_stores (adc : nat -> Z) (s : state) :
  battPct (state_of (saveBattery adc s)) = stored_percent (readAdc adc).
Proof.
  unfold saveBattery, LowPower_powerDown, stored_percent.
  destruct s as [bc ao rq pw om lp bp bt pin wr sr]. state_simpl.
  destruct (bc && _); reflexivity.
Qed.

Lemma loop_battPct (i : loop_in) (s : state) :
  battPct (state_of (loop i s)) = battPct s \/
  battPct (state_of (loop i s)) = stored_percent (readAdc (li_adc i)).
Proof.
  unfold stored_percent.
  destruct s as [bc ao rq pw om lp bp bt pin wr sr].
  unfold loop, loop_battery, saveBattery, LowPower_powerDown. state_simpl.
  destruct (sub32 (li_millis_due i) bt >=? 10000); state_simpl;
    try (destruct (bc && _); state_simpl; [now right|]);
    loop_blocks; state_simpl;
    (destruct ao; state_simpl; [auto|]);
    (destruct (li_pir i && negb lp); state_simpl;
     [|destruct pw; state_simpl]);
    try destruct (sub32 (li_millis_hold i) _ >=? 60000); state_simpl;
    destruct rq; state_simpl; auto.
Qed.

Lemma rxEvent_battPct (now n : Z) (s : state) : battPct (rxEvent now n s) = battPct s.
Proof.
  destruct (rxEvent_cases now n s) as [E|[E|[E|(nm & _ & E)]]]; rewrite E;
    destruct s as [bc ao rq pw om lp bp bt pin wr sr]; state_simpl; try reflexivity.
  destruct nm; reflexivity.
Qed.

Lemma setup_battPct (i : setup_in) (s : state) :
  battPct (state_of (setup i s)) = stored_percent (readAdc (su_adc i)).
Proof.
  unfold setup, saveBattery, LowPower_powerDown, stored_percent.
  destruct s as [bc ao rq pw om lp bp bt pin wr sr]. state_simpl.
  destruct (bc && _); reflexivity.
Qed.

(** X11. In every reachable state the byte the controller answers a read
    request with is a percentage in 0..100. *)
Theorem reported_percent_in_range (s : state) :
  reachable (Running s) -> 0 <= txEvent s <= 100.
Proof.
  intros Hr. unfold txEvent.
  change (0 <= battPct (state_of (Running s)) <= 100).
  induction Hr as [i|e s0 Hr IH].
  - rewrite setup_battPct. apply stored_percent_range.
  - cbn [state_of] in IH. destruct e as [i|now frame|]; cbn [step state_of].
    + destruct (loop_battPct i s0) as [-> | ->];
        [assumption|apply stored_percent_range].
    + unfold onReceive. rewrite rxEvent_battPct. destruct s0; exact IH.
    + assumption.
Qed.

Lemma reported_percent_in_range_witness : 0 <= txEvent timed_out <= 100.
Proof.
  apply (reported_percent_in_range timed_out timed_out_reachable).
Defined.

Lemma all_from_spec (lo : Z) (n : nat) (f : Z -> bool) :
  all_from lo n f = true ->
  forall z, lo <= z < lo + Z.of_nat n -> f z = true.
Proof.
  unfold all_from. intros H z Hz. rewrite forallb_forall in H.
  replace z with (lo + Z.of_nat (Z.to_nat (z - lo))) by lia.
  apply H. apply in_seq. lia.
Qed.

(** X12. With the cutoff enabled, the battery check halts exactly for the
    raw readings up to 220 (below about 5.38 V at the divider's scale):
    over the whole range of the ADC, [v < VBAT_CUT] holds if and only if
    [raw <= 220]. *)
Theorem cutoff_trips_up_to_raw_220 (adc : nat -> Z) (s : state) :
  (forall k, 0 <= adc k <= 1023) -> battCutoff s = true ->
  F32.ltb (voltage (readAdc adc)) VBAT_CUT = (readAdc adc <=? 220) /\
  ((exists h, saveBattery adc s = Halted h) <-> readAdc adc <= 220).
Proof.
  intros Hadc Hc.
  assert (Hall : all_from 0 1024
                   (fun r => Bool.eqb (F32.ltb (voltage r) VBAT_CUT) (r <=? 220)) = true)
    by (vm_compute; reflexivity).
  pose proof (readAdc_range adc Hadc) as Hr.
  assert (E : F32.ltb (voltage (readAdc adc)) VBAT_CUT = (readAdc adc <=? 220)).
  { apply eqb_prop. apply (all_from_spec 0 1024 _ Hall). lia. }
  split; [exact E|].
  unfold saveBattery, LowPower_powerDown.
  destruct s as [bc ao rq pw om lp bp bt pin wr sr]. state_simpl. subst bc.
  rewrite E. state_simpl.
  destruct (readAdc adc <=? 220) eqn:El.
  - apply Z.leb_le in El. split; [intros _; exact El|].
    intros _. eexists. reflexivity.
  - apply Z.leb_gt in El. split.
    + intros (h & Hh). discriminate.
    + lia.
Qed.

Lemma cutoff_trips_up_to_raw_220_witness :
  F32.ltb (voltage (readAdc (adc_const 220))) VBAT_CUT = (readAdc (adc_const 220) <=? 220) /\
  ((exists h, saveBattery (adc_const 220) cutoff_enabled_state = Halted h)
   <-> readAdc (adc_const 220) <= 220).
Proof.
  apply (cutoff_trips_up_to_raw_220 (adc_const 220) cutoff_enabled_state).
  - intros k. unfold adc_const. lia.
  - reflexivity.
Defined.

Lemma stored_percent_step :
  all_from 224 346 (fun r => stored_percent r <=? stored_percent (r + 1)) = true.
Proof. vm_compute. reflexivity. Qed.

Lemma stored_percent_defined :
  all_from 224 347
    (fun r => (0 <=? percent_value (voltage r)) && (percent_value (voltage r) <=? 255)
              && (stored_percent r =? Z.min 100 (percent_value (voltage r)))) = true.
Proof. vm_compute. reflexivity. Qed.

Lemma stored_percent_monotone (n : nat) :
  forall r, 224 <= r -> r + Z.of_nat n <= 570 ->
  stored_percent r <= stored_percent (r + Z.of_nat n).
Proof.
  induction n as [|n IH]; intros r Hlo Hhi.
  - rewrite Z.add_0_r. lia.
  - specialize (IH r Hlo ltac:(lia)).
    pose proof (all_from_spec 224 346 _ stored_percent_step (r + Z.of_nat n)
                  ltac:(lia)) as Hs.
    apply Z.leb_le in Hs.
    replace (r + Z.of_nat (S n)) with (r + Z.of_nat n + 1) by lia. lia.
Qed.

(** X13. For raw readings from 224 to 570, where the formula's truncated
    value fits a byte (so that its conversion does not depend on the
    compiler), the stored percentage is that value capped at 100, it never
    decreases when the reading increases, and it is 100 from 361 on. *)
Theorem percent_monotone_where_defined
    (adc1 adc2 : nat -> Z) (s1 s2 : state) :
  224 <= readAdc adc1 -> readAdc adc1 <= readAdc adc2 -> readAdc adc2 <= 570 ->
  0 <= percent_value (voltage (readAdc adc1)) <= 255 /\
  battPct (state_of (saveBattery adc1 s1))
    = Z.min 100 (percent_value (voltage (readAdc adc1))) /\
  battPct (state_of (saveBattery adc1 s1)) <= battPct (state_of (saveBattery adc2 s2)) /\
  (361 <= readAdc adc1 -> battPct (state_of (saveBattery adc1 s1)) = 100).
Proof.
  intros Hlo Hle Hhi. rewrite !saveBattery_stores.
  pose proof (all_from_spec 224 347 _ stored_percent_defined (readAdc adc1)
                ltac:(lia)) as Hd.
  apply andb_true_iff in Hd. destruct Hd as (Hd & He).
  apply andb_true_iff in Hd. destruct Hd as (H0 & H255).
  apply Z.leb_le in H0, H255. apply Z.eqb_eq in He.
  split; [lia|]. split; [exact He|]. split.
  - replace (readAdc adc2)
      with (readAdc adc1 + Z.of_nat (Z.to_nat (readAdc adc2 - readAdc adc1))) by lia.
    apply stored_percent_monotone; lia.
  - intros H361.
    pose proof (stored_percent_monotone (Z.to_nat (readAdc adc1 - 361)) 361
                  ltac:(lia) ltac:(lia)) as Hm.
    replace (361 + Z.of_nat (Z.to_nat (readAdc adc1 - 361))) with (readAdc adc1)
      in Hm by lia.
    change (stored_percent 361) with 100 in Hm.
    pose proof (stored_percent_range (readAdc adc1)). lia.
Qed.

Lemma percent_monotone_where_defined_witness :
  0 <= percent_value (voltage (readAdc (adc_const 300))) <= 255 /\
  battPct (state_of (saveBattery (adc_const 300) booted))
    = Z.min 100 (percent_value (voltage (readAdc (adc_const 300)))) /\
  battPct (state_of (saveBattery (adc_const 300) booted))
    <= battPct (state_of (saveBattery (adc_const 340) armed)) /\
  (361 <= readAdc (adc_const 300) ->
   battPct (state_of (saveBattery (adc_const 300) booted)) = 100).
Proof.
  apply (percent_monotone_where_defined (adc_const 300) (adc_const 340) booted armed).
  - vm_compute. discriminate.
  - vm_compute. discriminate.
  - vm_compute. discriminate.
Defined.

(** X14. [readAdc] reads the input eight times and returns a value between
    the least and the greatest of the eight samples; in particular eight
    equal samples give that sample back. *)
Theorem readAdc_between (adc : nat -> Z) (lo hi : Z) :
  0 <= lo -> hi <= 1023 ->
  (forall k, (k < 8)%nat -> lo <= adc k <= hi) ->
  lo <= readAdc adc <= hi /\
  readAdc adc = (adc 0%nat + adc 1%nat + adc 2%nat + adc 3%nat
                 + adc 4%nat + adc 5%nat + adc 6%nat + adc 7%nat) / 8.
Proof.
  intros Hlo Hhi H. unfold readAdc, u16, two32. cbn [seq fold_left].
  pose proof (H 0%nat ltac:(lia)). pose proof (H 1%nat ltac:(lia)).
  pose proof (H 2%nat ltac:(lia)). pose proof (H 3%nat ltac:(lia)).
  pose proof (H 4%nat ltac:(lia)). pose proof (H 5%nat ltac:(lia)).
  pose proof (H 6%nat ltac:(lia)). pose proof (H 7%nat ltac:(lia)).
  rewrite !Z.add_0_l.
  rewrite (Z.mod_small (adc 0%nat)) by lia.
  rewrite (Z.mod_small (adc 0%nat + adc 1%nat)) by lia.
  rewrite (Z.mod_small (adc 0%nat + adc 1%nat + adc 2%nat)) by lia.
  rewrite (Z.mod_small (adc 0%nat + adc 1%nat + adc 2%nat + adc 3%nat)) by lia.
  rewrite (Z.mod_small (adc 0%nat + adc 1%nat + adc 2%nat + adc 3%nat + adc 4%nat))
    by lia.
  rewrite (Z.mod_small (adc 0%nat + adc 1%nat + adc 2%nat + adc 3%nat + adc 4%nat
                        + adc 5%nat)) by lia.
  rewrite (Z.mod_small (adc 0%nat + adc 1%nat + adc 2%nat + adc 3%nat + adc 4%nat
                        + adc 5%nat + adc 6%nat)) by lia.
  rewrite (Z.mod_small (adc 0%nat + adc 1%nat + adc 2%nat + adc 3%nat + adc 4%nat
                        + adc 5%nat + adc 6%nat + adc 7%nat)) by lia.
  rewrite Z.shiftr_div_pow2 by lia. change (2 ^ 3) with 8.
  set (t := adc 0%nat + adc 1%nat + adc 2%nat + adc 3%nat + adc 4%nat
            + adc 5%nat + adc 6%nat + adc 7%nat) in *.
  assert (lo <= t / 8 <= hi).
  { split; [apply Z.div_le_lower_bound; lia|apply Z.div_le_upper_bound; lia]. }
  rewrite Z.mod_small by lia. split; [assumption|reflexivity].
Qed.

Lemma readAdc_between_witness :
  500 <= readAdc (fun k => 500 + Z.of_nat k) <= 507 /\
  readAdc (fun k => 500 + Z.of_nat k) =
    (500 + Z.of_nat 0 + (500 + Z.of_nat 1) + (500 + Z.of_nat 2) + (500 + Z.of_nat 3)
     + (500 + Z.of_nat 4) + (500 + Z.of_nat 5) + (500 + Z.of_nat 6)
     + (500 + Z.of_nat 7)) / 8.
Proof.
  apply (readAdc_between (fun k => 500 + Z.of_nat k) 500 507).
  - lia.
  - lia.
  - intros k Hk. lia.
Defined.

(** ** Arbitration inside one iteration *)

(** X15. In PIR_TRIGGERED mode a pending shutdown request wins over
    everything else in the iteration: the relay ends OFF and the request is
    cleared whatever the inputs, and a rising edge seen in that same
    iteration is used up (logged, timer restarted, [lastPir] HIGH) without
    powering the Pi. *)
Theorem pending_shutdown_beats_motion (i : loop_in) (s : state) :
  reachable (Running s) -> mode s = PIR_TRIGGERED -> rqShutdown s = true ->
  exists s', loop i s = Running s' /\
    relay s' = OFF /\ powering s' = false /\ rqShutdown s' = false /\
    lastPir s' = li_pir i /\
    (rising i s = true ->
       onMs s' = li_millis_pir i /\
       printed MsgPirRise s' = S (printed MsgPirRise s)).
Proof.
  intros Hr Hm Hq.
  destruct (reachable_inv _ Hr) as (s0 & E & Hc & _). injection E as <-.
  destruct (loop_returns i s Hc) as (bp & bt & El).
  eexists. split; [exact El|].
  destruct s as [bc ao rq pw om lp bp0 bt0 pin wr sr].
  loop_blocks. unfold rising, printed. state_simpl. subst rq.
  destruct ao; [discriminate|]. state_simpl.
  destruct (li_pir i && negb lp); state_simpl;
    [|destruct pw; state_simpl];
    try destruct (sub32 (li_millis_hold i) _ >=? 60000); state_simpl;
    repeat split; intros; try discriminate; reflexivity.
Qed.

Lemma pending_shutdown_beats_motion_witness :
  exists s',
    loop (poll 70000 HIGH)
         (onReceive 66000 [CMD_SHUT] (state_of (loop (poll 65000 LOW) timed_out)))
      = Running s' /\
    relay s' = OFF /\ powering s' = false /\ rqShutdown s' = false /\
    lastPir s' = li_pir (poll 70000 HIGH) /\
    (rising (poll 70000 HIGH)
            (onReceive 66000 [CMD_SHUT] (state_of (loop (poll 65000 LOW) timed_out)))
       = true ->
       onMs s' = li_millis_pir (poll 70000 HIGH) /\
       printed MsgPirRise s' =
         S (printed MsgPirRise
              (onReceive 66000 [CMD_SHUT] (state_of (loop (poll 65000 LOW) timed_out))))).
Proof.
  apply (pending_shutdown_beats_motion (poll 70000 HIGH)
           (onReceive 66000 [CMD_SHUT] (state_of (loop (poll 65000 LOW) timed_out)))).
  - apply (reachable_run [EvLoop (poll 65000 LOW); EvReceive 66000 [CMD_SHUT]]
             (Running timed_out) timed_out_reachable).
  - vm_compute. reflexivity.
  - vm_compute. reflexivity.
Defined.
